(** * Team-membership and user resource handlers of the litellm provider

  A shallow embedding of [provider/resource_team_membership.go] and of the
  user resource file, followed by the properties of the handlers.

  Go values are modelled as they appear in the handlers: strings as
  [string], [float64] as the primitive binary64 [float], [interface{}]
  values as the tagged type [iface], the declared state
  ([*schema.ResourceData]) as a finite map from field names to
  [interface{}] values, and Go maps built for JSON payloads as finite maps
  from keys to JSON values.  A run-time panic is an explicit outcome, and
  every handler also yields the trace of the calls it makes on the API
  client and on the HTTP transport. *)

From Stdlib Require Import Floats.
From stdpp Require Import base option list strings gmap sorting pretty.


(** ** Go run-time values and panics *)

Module Go.

(** A value of static type [interface{}]: the nil interface, or a dynamic
    value of one of the types the handlers meet. *)
Inductive iface : Type :=
  | Nil
  | Str (s : string)
  | Float64 (f : float)
  | Int (n : Z)
  | Bool (b : bool).

(** The two run-time panics the handlers can raise. *)
Inductive panic : Type :=
  | InterfaceConversion   (* x.(T) on a value that is not a T *)
  | NilDereference.       (* field access through a nil pointer *)

Inductive outcome (A : Type) : Type :=
  | Return (a : A)
  | Panic (p : panic).
Arguments Return {A} a.
Arguments Panic {A} p.

(** [v.(string)], single-result form: panics unless [v] holds a string. *)
Definition assert_string (v : iface) : outcome string :=
  match v with
  | Str s => Return s
  | _ => Panic InterfaceConversion
  end.

(** [v.(float64)], single-result form. *)
Definition assert_float64 (v : iface) : outcome float :=
  match v with
  | Float64 f => Return f
  | _ => Panic InterfaceConversion
  end.

(** [p.f] through a pointer [p] that may be nil. *)
Definition deref {A : Type} (p : option A) : outcome A :=
  match p with
  | Some a => Return a
  | None => Panic NilDereference
  end.

(** Go's [error]: nil, or an error with its message. *)
Definition error : Type := option string.

End Go.
Import Go.

(** ** Formatting ([fmt]) *)

(** [%v] applied to a slice of strings: the elements separated by one space,
  in square brackets. *)
Fixpoint join (sep : string) (l : list string) : string :=
  match l with
  | [] => ""
  | [x] => x
  | x :: rest => x +:+ sep +:+ join sep rest
  end.

Definition fmt_v_strings (l : list string) : string :=
  "[" +:+ join " " l +:+ "]".

(** [%d] applied to an integer. *)
Definition fmt_d (n : Z) : string := pretty n.

(** [t] occurs in [s]. *)
Definition occurs_in (t s : string) : Prop :=
  exists pre post : string, s = pre +:+ t +:+ post.

(** ** Package [litellm]: roles *)

Module litellm.

(** The type of role names, a string type. *)
Definition RoleName : Type := string.

(** Modelled from the spec: the constants [litellm.PROXY_ADMIN] and
    [litellm.PROXY_ADMIN_VIEWER] of package [provider/litellm], which is
    not among the sources.  They are the two role values reserved for
    proxy-level administration, named [proxy_admin] and
    [proxy_admin_viewer] by the validator's own error message. *)
Definition PROXY_ADMIN : RoleName := "proxy_admin".
Definition PROXY_ADMIN_VIEWER : RoleName := "proxy_admin_viewer".

(** Modelled from the spec: [litellm.ValidateRole] of package
    [provider/litellm], which is not among the sources.  Given a candidate
    string it determines whether the string belongs to the closed set of
    role names [ROLE_LIST] (a table of that package, taken as a
    parameter); it returns the role together with the verdict, and the
    zero role when the candidate is not a role name. *)
Definition ValidateRole (ROLE_LIST : list RoleName) (value : string) : RoleName * bool :=
  if existsb (String.eqb value) ROLE_LIST then (value, true) else ("", false).

(** Modelled from the spec: the struct [litellm.MemberWithRole] of package
    [provider/litellm]: one entry of the [members_with_roles] array of a
    team, with JSON fields [user_id], [role] and [user_email]. *)
Record MemberWithRole : Type := mkMemberWithRole {
  UserId : string;
  Role : string;
  UserEmail : string
}.

End litellm.

(** ** The role validator: [SchemaTeamMembership["role"].ValidateFunc] *)

Section RoleValidator.

Variable ROLE_LIST : list litellm.RoleName.

Definition role_list_error : string :=
  "Provided role should be in this list " +:+ fmt_v_strings ROLE_LIST.

Definition proxy_admin_error : string :=
  "proxy_admin and proxy_admin_viewer cannot be set to associate a team with an user".

(** The function returns [(warns, errs)]; an error is represented by its
    message.  [val.(string)] panics on a value that is not a string. *)
Definition ValidateFunc (val : iface) (key : string)
  : outcome (list string * list string) :=
  match assert_string val with
  | Panic p => Panic p
  | Return value =>
      let warns : list string := [] in
      let errs : list string := [] in
      let '(role, isValidated) := litellm.ValidateRole ROLE_LIST value in
      let errs := if negb isValidated then errs ++ [role_list_error] else errs in
      let errs :=
        if String.eqb role litellm.PROXY_ADMIN
           || String.eqb role litellm.PROXY_ADMIN_VIEWER
        then errs ++ [proxy_admin_error] else errs in
      Return (warns, errs)
  end.

End RoleValidator.


(** ** JSON documents and [encoding/json] *)

#[local] Set Warnings "-register-all".

(** A JSON document.  An object lists its members, one per key, as the Go
    map that holds it does. *)
Inductive json : Type :=
  | JNull
  | JBool (b : bool)
  | JNum (f : float)
  | JStr (s : string)
  | JArr (elems : list json)
  | JObj (fields : list (string * json)).

(** A Go map with string keys, as a JSON value. *)
Definition go_map (m : gmap string json) : json := JObj (map_to_list m).

(** The two leaf encoders of [encoding/json], of the Go standard library:
    the JSON string literal of a Go string (quotes and escapes included) and
    the JSON number of a finite [float64]. *)
Class LeafEncoder : Type := {
  encodeString : string -> string;
  formatFloat : float -> string
}.

Definition key_le (a b : string * string) : Prop := String.le a.1 b.1.

#[global] Instance key_le_dec : RelDecision key_le.
Proof. intros a b. unfold key_le. apply _. Defined.

(** One member of an object: the encoded key, a colon, the encoded value. *)
Definition render_member {enc : LeafEncoder} (kv : string * string) : string :=
  encodeString kv.1 +:+ ":" +:+ kv.2.

(** A [float64] that is neither a NaN nor an infinity. *)
Definition finite (f : float) : Prop :=
  (PrimFloat.is_nan f || PrimFloat.is_infinity f)%bool = false.

(** The text of an object, given its members in order. *)
Definition json_object {enc : LeafEncoder} (members : list (string * string)) : string :=
  "{" +:+ join "," (render_member <$> members) +:+ "}".

(** [json.Marshal]: compact output, the members of an object sorted by key
    (the keys compared as strings, before they are encoded); a NaN or an
    infinite number is an unsupported value ([None]). *)
Fixpoint marshal {enc : LeafEncoder} (j : json) : option string :=
  match j with
  | JNull => Some "null"
  | JBool b => Some (if b then "true" else "false")
  | JNum f =>
      if (PrimFloat.is_nan f || PrimFloat.is_infinity f)%bool then None
      else Some (formatFloat f)
  | JStr s => Some (encodeString s)
  | JArr elems =>
      let fix go (l : list json) : option (list string) :=
        match l with
        | [] => Some []
        | x :: rest =>
            match marshal x, go rest with
            | Some a, Some b => Some (a :: b)
            | _, _ => None
            end
        end in
      match go elems with
      | Some xs => Some ("[" +:+ join "," xs +:+ "]")
      | None => None
      end
  | JObj fields =>
      let fix go (l : list (string * json)) : option (list (string * string)) :=
        match l with
        | [] => Some []
        | (k, v) :: rest =>
            match marshal v, go rest with
            | Some a, Some b => Some ((k, a) :: b)
            | _, _ => None
            end
        end in
      match go fields with
      | Some kvs =>
          Some (json_object (merge_sort key_le kvs))
      | None => None
      end
  end.

(** [json.Marshal(v)] as the handlers call it: the bytes and the error. *)
Definition json_Marshal {enc : LeafEncoder} (v : json) : string * error :=
  match marshal v with
  | Some bytes => (bytes, None)
  | None => ("", Some "json: unsupported value")
  end.

(** [json.Unmarshal(data, v)] where [v] is not a pointer: nothing is stored
    in the caller's variable, which is handed back as it was, and the call
    returns an error (a syntax error on empty input, an
    [InvalidUnmarshalError] otherwise). *)
Definition json_Unmarshal_nonpointer {A : Type} (data : string) (v : A) : A * error :=
  (v, Some (if String.eqb data "" then "unexpected end of JSON input"
            else "json: Unmarshal(non-pointer)")).

(** The value of a string member of an object, the zero string when the
    member is absent or not a string. *)
Fixpoint member (k : string) (fields : list (string * json)) : option json :=
  match fields with
  | [] => None
  | (k', v) :: rest => if String.eqb k' k then Some v else member k rest
  end.

Definition string_member (k : string) (fields : list (string * json)) : string :=
  match member k fields with
  | Some (JStr s) => s
  | _ => ""
  end.

(** Modelled from the spec: the reading of one entry of [members_with_roles]
    as a [litellm.MemberWithRole], by the JSON field names [user_id], [role]
    and [user_email] (the struct and its tags are in package
    [provider/litellm], which is not among the sources). *)
Definition member_of_json (j : json) : litellm.MemberWithRole :=
  match j with
  | JObj fields =>
      litellm.mkMemberWithRole (string_member "user_id" fields)
        (string_member "role" fields) (string_member "user_email" fields)
  | _ => litellm.mkMemberWithRole "" "" ""
  end.

(** ** Diagnostics ([diag]) *)

Inductive severity : Type := Error | Warning.

Record Diagnostic : Type := mkDiagnostic {
  Severity : severity;
  Summary : string
}.

Definition Diagnostics : Type := list Diagnostic.

(** [diag.FromErr(err)] *)
Definition diag_FromErr (err : error) : Diagnostics :=
  match err with
  | Some msg => [mkDiagnostic Error msg]
  | None => []
  end.

(** [diag.Errorf(format, a...)], given the formatted message. *)
Definition diag_Errorf (msg : string) : Diagnostics := [mkDiagnostic Error msg].

(** ** Declared state ([*schema.ResourceData]) *)

Definition Get (d : gmap string iface) (key : string) : iface :=
  default Nil (d !! key).

Definition Set_ (d : gmap string iface) (key : string) (value : iface)
  : gmap string iface :=
  <[key := value]> d.

(** ** The API client and the HTTP transport *)

Record Request : Type := mkRequest {
  Method : string;
  URL : string;
  Header : list (string * string);
  ReqBody : option string
}.

(** A response: its status code and its body, given by the document that
    [json.NewDecoder(resp.Body).Decode] reads from it ([None] when the bytes
    are not a JSON document). *)
Record Response : Type := mkResponse {
  StatusCode : Z;
  Body : option json
}.

(** [LitellmClient]: the base URL, and the method [NewRequest] (defined
    outside the sources) as a field. *)
Record LitellmClient : Type := mkLitellmClient {
  ApiBaseURL : string;
  NewRequest : string -> string -> option string -> option Request * error
}.

(** The provider handle [m interface{}] passed to every handler. *)
Inductive meta : Type :=
  | ClientPtr (c : option LitellmClient)   (* a [*LitellmClient], nil or not *)
  | NotClient (v : iface).

(** The type assertion of [m] to a pointer to [LitellmClient]. *)
Definition assert_client (m : meta) : outcome (option LitellmClient) :=
  match m with
  | ClientPtr c => Return c
  | NotClient _ => Panic InterfaceConversion
  end.

Definition StatusOK : Z := 200.

(** What a handler does to the outside: the requests it builds through the
    client and the requests it sends. *)
Inductive event : Type :=
  | BuildRequest (method url : string) (body : option string)
  | SendRequest (req : Request).

(** ** Handlers as computations *)

#[global] Instance outcome_ret : MRet outcome := @Return.

#[global] Instance outcome_bind : MBind outcome :=
  fun A B k m => match m with Return a => k a | Panic p => Panic p end.

(** A handler either returns or panics, and leaves the trace of its calls. *)
Definition handler (A : Type) : Type := outcome A * list event.

#[global] Instance handler_ret : MRet handler := fun A a => (Return a, []).

#[global] Instance handler_bind : MBind handler :=
  fun A B k m =>
    match m with
    | (Return a, trace) => let '(r, trace') := k a in (r, trace ++ trace')
    | (Panic p, trace) => (Panic p, trace)
    end.

(** A step that calls nothing outside. *)
Definition pure_step {A : Type} (o : outcome A) : handler A := (o, []).

(** [client.NewRequest(method, url, body)] *)
Definition client_NewRequest (c : LitellmClient) (method url : string)
    (body : option string) : handler (option Request * error) :=
  (Return (NewRequest c method url body), [BuildRequest method url body]).

(** [http.DefaultClient.Do(req)]: a nil request is dereferenced before
    anything is sent. *)
Definition http_Do (remote : Request -> option Response * error)
    (req : option Request) : handler (option Response * error) :=
  match req with
  | Some r => (Return (remote r), [SendRequest r])
  | None => (Panic NilDereference, [])
  end.

(** ** The team-membership handlers *)

Record TeamMembershipData : Type := mkTeamMembershipData {
  UserId : string;
  Role : string;
  TeamId : string;
  MaxBudgetInTeam : float
}.

Definition getTeamMembershipData (d : gmap string iface) : outcome TeamMembershipData :=
  userId ← assert_string (Get d "user_id");
  role ← assert_string (Get d "role");
  teamId ← assert_string (Get d "team_id");
  maxBudgetInTeam ← assert_float64 (Get d "max_budget_in_team");
  Return (mkTeamMembershipData userId role teamId maxBudgetInTeam).

(** The payload of Create (the map literal and the guarded assignment). *)
Definition create_payload (data : TeamMembershipData) : gmap string json :=
  let jsonPayload : gmap string json :=
    {[ "member" := go_map {[ "role" := JStr (Role data);
                             "user_id" := JStr (UserId data) ]};
       "team_id" := JStr (TeamId data) ]} in
  if (0 <? MaxBudgetInTeam data)%float
  then <["max_budget_in_team" := JNum (MaxBudgetInTeam data)]> jsonPayload
  else jsonPayload.

(** The payload of Update. *)
Definition update_payload (data : TeamMembershipData) : gmap string json :=
  let jsonPayload : gmap string json :=
    {[ "user_id" := JStr (UserId data);
       "role" := JStr (Role data);
       "team_id" := JStr (TeamId data) ]} in
  if (0 <? MaxBudgetInTeam data)%float
  then <["max_budget_in_team" := JNum (MaxBudgetInTeam data)]> jsonPayload
  else jsonPayload.

(** The payload of Delete. *)
Definition delete_payload (data : TeamMembershipData) : gmap string json :=
  {[ "user_id" := JStr (UserId data);
     "team_id" := JStr (TeamId data) ]}.

Definition status_message (code : Z) : string :=
  "API request to create team membership has failed with status code " +:+ fmt_d code.

(** The loop of Read over [membersWithRoles]: the declared state after the
    writes of the first matching entry, [None] when no entry matches. *)
Fixpoint scan_members (userId : string) (d : gmap string iface)
    (membersWithRoles : list litellm.MemberWithRole) : option (gmap string iface) :=
  match membersWithRoles with
  | [] => None
  | teamMembership :: rest =>
      if String.eqb (litellm.UserId teamMembership) userId
      then Some (Set_ (Set_ d "role" (Str (litellm.Role teamMembership)))
                      "user_email" (Str (litellm.UserEmail teamMembership)))
      else scan_members userId d rest
  end.

(** The decoding of a response body into [map[string]interface{}]: the
    members of an object; the map stays nil for any other document and when
    decoding fails. *)
Definition decode_body (body : option json) : gmap string json * error :=
  match body with
  | Some (JObj fields) => (list_to_map (reverse fields), None)
  | Some JNull => (∅, None)
  | Some _ => (∅, Some "json: cannot unmarshal into Go value of type map[string]interface {}")
  | None => (∅, Some "invalid character looking for beginning of value")
  end.

(** Indexing a [map[string]interface{}]: the nil interface (JSON null) for
    an absent key. *)
Definition index (m : gmap string json) (key : string) : json :=
  default JNull (m !! key).

(** In the handlers below, every [if err != nil { diag.FromErr(err) }] and
    every [diag.Errorf(...)] of the source is an expression statement: the
    diagnostics are computed and dropped, [diags] is never assigned.  They
    are written [let _ := ... in].  The deferred [resp.Body.Close()]
    evaluates [resp.Body] where the [defer] statement stands. *)

Section Handlers.

Context {enc : LeafEncoder}.

(** The remote service as the transport sees it: the response, or the
    error, of [http.DefaultClient.Do] on a request. *)
Variable remote : Request -> option Response * error.

Definition resourceTeamMembershipCreate (d : gmap string iface) (m : meta)
  : handler (gmap string iface * Diagnostics) :=
  client ← pure_step (assert_client m);
  let diags : Diagnostics := [] in
  teamMembershipData ← pure_step (getTeamMembershipData d);
  c ← pure_step (deref client);
  let apiUrl := ApiBaseURL c +:+ "/team/member_add" in
  let jsonPayload := create_payload teamMembershipData in
  let '(body, err) := json_Marshal (go_map jsonPayload) in
  let _ := diag_FromErr err in
  '(req, err) ← client_NewRequest c "POST" apiUrl (Some body);
  let _ := diag_FromErr err in
  '(resp, err) ← http_Do remote req;
  let _ := diag_FromErr err in
  r ← pure_step (deref resp);           (* defer resp.Body.Close() *)
  let _ := if bool_decide (StatusCode r ≠ StatusOK)
           then diag_Errorf (status_message (StatusCode r)) else [] in
  mret (d, diags).

Definition resourceTeamMembershipRead (d : gmap string iface) (m : meta)
  : handler (gmap string iface * Diagnostics) :=
  client ← pure_step (assert_client m);
  let diags : Diagnostics := [] in
  teamMembershipData ← pure_step (getTeamMembershipData d);
  c ← pure_step (deref client);
  let apiUrl := ApiBaseURL c +:+ "/team/info?team_id=" +:+ TeamId teamMembershipData in
  '(req, err) ← client_NewRequest c "GET" apiUrl None;
  let _ := diag_FromErr err in
  '(resp, err) ← http_Do remote req;
  let _ := diag_FromErr err in
  r ← pure_step (deref resp);           (* defer resp.Body.Close() *)
  let '(respJsonBody, err) := decode_body (Body r) in
  let _ := diag_FromErr err in
  let '(jsonTeamMembership, err) :=
    json_Marshal (index respJsonBody "members_with_roles") in
  let _ := diag_FromErr err in
  let membersWithRoles : list litellm.MemberWithRole := [] in
  let '(membersWithRoles, err) :=
    json_Unmarshal_nonpointer jsonTeamMembership membersWithRoles in
  let _ := diag_FromErr err in
  match scan_members (UserId teamMembershipData) d membersWithRoles with
  | Some d' => mret (d', [])            (* return nil *)
  | None => mret (d, diags)
  end.

Definition resourceTeamMembershipUpdate (d : gmap string iface) (m : meta)
  : handler (gmap string iface * Diagnostics) :=
  client ← pure_step (assert_client m);
  let diags : Diagnostics := [] in
  teamMembershipData ← pure_step (getTeamMembershipData d);
  c ← pure_step (deref client);
  let apiUrl := ApiBaseURL c +:+ "/team/member_update" in
  let jsonPayload := update_payload teamMembershipData in
  let '(body, err) := json_Marshal (go_map jsonPayload) in
  let _ := diag_FromErr err in
  '(req, err) ← client_NewRequest c "POST" apiUrl (Some body);
  let _ := diag_FromErr err in
  '(resp, err) ← http_Do remote req;
  let _ := diag_FromErr err in
  r ← pure_step (deref resp);           (* defer resp.Body.Close() *)
  let _ := if bool_decide (StatusCode r ≠ StatusOK)
           then diag_Errorf (status_message (StatusCode r)) else [] in
  mret (d, diags).

Definition resourceTeamMembershipDelete (d : gmap string iface) (m : meta)
  : handler (gmap string iface * Diagnostics) :=
  client ← pure_step (assert_client m);
  let diags : Diagnostics := [] in
  teamMembershipData ← pure_step (getTeamMembershipData d);
  c ← pure_step (deref client);
  let apiUrl := ApiBaseURL c +:+ "/team/member_delete" in
  let '(jsonPayload, err) := json_Marshal (go_map (delete_payload teamMembershipData)) in
  let _ := diag_FromErr err in
  '(req, err) ← client_NewRequest c "POST" apiUrl (Some jsonPayload);
  let _ := diag_FromErr err in
  '(resp, err) ← http_Do remote req;
  let _ := diag_FromErr err in
  r ← pure_step (deref resp);           (* defer resp.Body.Close() *)
  let _ := if bool_decide (StatusCode r ≠ StatusOK)
           then diag_Errorf (status_message (StatusCode r)) else [] in
  mret (d, diags).

(** The bytes each mutating handler hands to [client.NewRequest]. *)
Definition create_body (data : TeamMembershipData) : string :=
  (json_Marshal (go_map (create_payload data))).1.
Definition update_body (data : TeamMembershipData) : string :=
  (json_Marshal (go_map (update_payload data))).1.
Definition delete_body (data : TeamMembershipData) : string :=
  (json_Marshal (go_map (delete_payload data))).1.

End Handlers.

(** ** The user handlers *)

Definition resourceUserCreate (d : gmap string iface) (m : meta)
  : handler (gmap string iface * Diagnostics) :=
  let diags : Diagnostics := [] in
  client ← pure_step (assert_client m);
  mret (d, diags).

Definition resourceUserDelete (d : gmap string iface) (m : meta)
  : handler (gmap string iface * Diagnostics) :=
  let diags : Diagnostics := [] in
  client ← pure_step (assert_client m);
  mret (d, diags).

Definition resourceUserRead (d : gmap string iface) (m : meta)
  : handler (gmap string iface * Diagnostics) :=
  let diags : Diagnostics := [] in
  client ← pure_step (assert_client m);
  mret (d, diags).

Definition resourceUserUpdate (d : gmap string iface) (m : meta)
  : handler (gmap string iface * Diagnostics) :=
  let diags : Diagnostics := [] in
  client ← pure_step (assert_client m);
  mret (d, diags).

(** The bodies of the requests a trace builds, in order. *)
Fixpoint built_bodies (trace : list event) : list (option string) :=
  match trace with
  | [] => []
  | BuildRequest _ _ body :: rest => body :: built_bodies rest
  | SendRequest _ :: rest => built_bodies rest
  end.

(** ** What a response says, and sample inputs *)

(** Modelled from the spec: the entries of the [members_with_roles] array of
    a response, read as [litellm.MemberWithRole] values (what decoding into
    a pointer to the slice yields; the struct is in package
    [provider/litellm], which is not among the sources). *)
Definition response_members (resp : Response) : list litellm.MemberWithRole :=
  match index (decode_body (Body resp)).1 "members_with_roles" with
  | JArr elems => member_of_json <$> elems
  | _ => []
  end.

Definition quote : string := String (Ascii.ascii_of_nat 34) "".

(** An encoder for the sample inputs: strings with no character to escape,
    and the numbers 0 and 12.5. *)
Definition sample_encoder : LeafEncoder :=
  {| encodeString s := quote +:+ s +:+ quote;
     formatFloat f := if (f =? 12.5)%float then "12.5" else "0" |}.

Definition sample_client : LitellmClient :=
  mkLitellmClient "https://llm.example"
    (fun method url body =>
       (Some (mkRequest method url [("Content-Type", "application/json")] body), None)).

(** A client whose [NewRequest] fails. *)
Definition failing_client : LitellmClient :=
  mkLitellmClient "https://llm.example"
    (fun method url body => (None, Some "parse url: invalid control character in URL")).

(** Declared state of a user in team [t1], as a schema that declares the
    budget field hands it out. *)
Definition declared (userId role : string) (budget : float) : gmap string iface :=
  {[ "team_id" := Str "t1"; "user_id" := Str userId; "role" := Str role;
     "max_budget_in_team" := Float64 budget ]}.

(** Declared state under [SchemaTeamMembership] as it stands: the budget
    field is not declared, and [Get] yields the nil interface for it. *)
Definition declared_by_schema : gmap string iface :=
  {[ "team_id" := Str "t1"; "user_id" := Str "u2"; "role" := Str "member" ]}.

(** A remote that answers every request with the given status and body. *)
Definition answering (status : Z) (body : option json) : Request -> option Response * error :=
  fun _ => (Some (mkResponse status body), None).

(** A remote that cannot be reached. *)
Definition unreachable : Request -> option Response * error :=
  fun _ => (None, Some "dial tcp: connection refused").

(** The team of the spec's Read example. *)
Definition team_info : json :=
  JObj [("team_id", JStr "t1");
        ("members_with_roles",
         JArr [JObj [("user_id", JStr "u1"); ("role", JStr "member");
                     ("user_email", JStr "a@x.com")];
               JObj [("user_id", JStr "u2"); ("role", JStr "admin")]])].

(** ** Shapes of traces *)

(** The traces of one exchange at most, for a handler called with handle
    [m]: nothing; or one request built by the client, which failed to build
    it; or one request built by the client and that same request sent.  The
    request is built with the given method, and with a body or not. *)
Definition single_exchange (m : meta) (method : string) (with_body : bool)
    (trace : list event) : Prop :=
  trace = []
  \/ exists (c : LitellmClient) (url : string) (body : option string),
       m = ClientPtr (Some c)
       /\ match body with Some _ => true | None => false end = with_body
       /\ ((exists e, NewRequest c method url body = (None, e)
                      /\ trace = [BuildRequest method url body])
           \/ (exists req e, NewRequest c method url body = (Some req, e)
                          /\ trace = [BuildRequest method url body; SendRequest req])).

(** Whether an exchange completes: the client builds the request and the
    remote answers it with a response. *)
Definition answered (remote : Request -> option Response * error)
    (c : LitellmClient) (method url : string) (body : option string) : bool :=
  match NewRequest c method url body with
  | (Some req, _) =>
      match remote req with
      | (Some _, _) => true
      | (None, _) => false
      end
  | (None, _) => false
  end.

(** * Properties *)

(** ** Formatting *)

Lemma append_assoc (a b c : string) : (a +:+ b) +:+ c = a +:+ (b +:+ c).
Proof.
  induction a as [|x a IH]; [reflexivity|].
  change (String x ((a +:+ b) +:+ c) = String x (a +:+ (b +:+ c))).
  by rewrite IH.
Qed.

Lemma append_nil_r (a : string) : a +:+ "" = a.
Proof.
  induction a as [|x a IH]; [reflexivity|].
  change (String x (a +:+ "") = String x a). by rewrite IH.
Qed.

Lemma occurs_in_refl (t : string) : occurs_in t t.
Proof. exists "", "". change (t = t +:+ ""). by rewrite append_nil_r. Qed.

Lemma occurs_in_app_l (t a s : string) : occurs_in t s -> occurs_in t (a +:+ s).
Proof.
  intros (pre & post & ->). exists (a +:+ pre), post. by rewrite append_assoc.
Qed.

Lemma occurs_in_app_r (t s b : string) : occurs_in t s -> occurs_in t (s +:+ b).
Proof.
  intros (pre & post & ->). exists pre, (post +:+ b). by rewrite !append_assoc.
Qed.

Lemma occurs_in_join (sep t : string) (l : list string) :
  t ∈ l -> occurs_in t (join sep l).
Proof.
  induction l as [|x rest IH]; intros Hin.
  - by apply elem_of_nil in Hin.
  - apply elem_of_cons in Hin as [-> | Hin].
    + destruct rest as [|y rest']; [apply occurs_in_refl|].
      change (occurs_in x (x +:+ sep +:+ join sep (y :: rest'))).
      apply occurs_in_app_r, occurs_in_refl.
    + destruct rest as [|y rest']; [by apply elem_of_nil in Hin|].
      change (occurs_in t (x +:+ sep +:+ join sep (y :: rest'))).
      by apply occurs_in_app_l, occurs_in_app_l, IH.
Qed.

Lemma role_list_error_enumerates (ROLE_LIST : list litellm.RoleName) (r : litellm.RoleName) :
  r ∈ ROLE_LIST -> occurs_in r (role_list_error ROLE_LIST).
Proof.
  intros Hin. unfold role_list_error, fmt_v_strings.
  apply occurs_in_app_l, occurs_in_app_l, occurs_in_app_r.
  by apply occurs_in_join.
Qed.

(** ** The role validator *)

Lemma existsb_eqb_elem_of (value : string) (l : list string) :
  existsb (String.eqb value) l = true <-> value ∈ l.
Proof.
  rewrite existsb_exists. split.
  - intros (x & Hin & Heq). apply String.eqb_eq in Heq as ->.
    by apply list_elem_of_In.
  - intros Hin. exists value. split; [by apply list_elem_of_In | apply String.eqb_refl].
Qed.

Lemma ValidateRole_listed (ROLE_LIST : list litellm.RoleName) (value : string) :
  value ∈ ROLE_LIST -> litellm.ValidateRole ROLE_LIST value = (value, true).
Proof.
  intros Hin. unfold litellm.ValidateRole.
  by apply existsb_eqb_elem_of in Hin as ->.
Qed.

Lemma ValidateRole_unlisted (ROLE_LIST : list litellm.RoleName) (value : string) :
  value ∉ ROLE_LIST -> litellm.ValidateRole ROLE_LIST value = ("", false).
Proof.
  intros Hout. unfold litellm.ValidateRole.
  destruct (existsb (String.eqb value) ROLE_LIST) eqn:E; [|done].
  by apply existsb_eqb_elem_of in E.
Qed.

(** C5: a candidate string outside the permitted role set is answered with
    exactly one validation error, no warning, and the message of that error
    contains every role of the permitted list. *)
Theorem ValidateFunc_unlisted_role (ROLE_LIST : list litellm.RoleName) (value key : string) :
  value ∉ ROLE_LIST ->
  ValidateFunc ROLE_LIST (Str value) key = Return ([], [role_list_error ROLE_LIST])
  /\ role_list_error ROLE_LIST =
       "Provided role should be in this list " +:+ fmt_v_strings ROLE_LIST
  /\ forall r : litellm.RoleName, r ∈ ROLE_LIST -> occurs_in r (role_list_error ROLE_LIST).
Proof.
  intros Hout. split; [|split].
  - unfold ValidateFunc. simpl. by rewrite (ValidateRole_unlisted _ _ Hout).
  - reflexivity.
  - intros r. apply role_list_error_enumerates.
Qed.

Lemma ValidateFunc_unlisted_role_witness :
  ("owner" ∉ ["admin"; "user"; "proxy_admin"; "proxy_admin_viewer"])
  /\ ValidateFunc ["admin"; "user"; "proxy_admin"; "proxy_admin_viewer"] (Str "owner") "role"
     = Return ([], ["Provided role should be in this list [admin user proxy_admin proxy_admin_viewer]"]).
Proof.
  assert (Hout : "owner" ∉ ["admin"; "user"; "proxy_admin"; "proxy_admin_viewer"])
    by (intros H; repeat (apply elem_of_cons in H as [H|H]; [discriminate|]);
        by apply elem_of_nil in H).
  split; [exact Hout|].
  exact (proj1 (ValidateFunc_unlisted_role _ "owner" "role" Hout)).
Defined.

(** C6: each of the two reserved proxy-admin values, although it is a
    recognised role name, is answered with the team-scope exclusion error
    (and with that error alone), which is not the error that enumerates the
    permitted list. *)
Theorem ValidateFunc_proxy_admin_role (ROLE_LIST : list litellm.RoleName) (value key : string) :
  value = litellm.PROXY_ADMIN \/ value = litellm.PROXY_ADMIN_VIEWER ->
  value ∈ ROLE_LIST ->
  ValidateFunc ROLE_LIST (Str value) key = Return ([], [proxy_admin_error])
  /\ proxy_admin_error ≠ role_list_error ROLE_LIST.
Proof.
  intros Hreserved Hin. split.
  - unfold ValidateFunc. simpl. rewrite (ValidateRole_listed _ _ Hin).
    by destruct Hreserved as [-> | ->].
  - unfold proxy_admin_error, role_list_error. intros Heq. discriminate Heq.
Qed.

Lemma ValidateFunc_proxy_admin_role_witness :
  ValidateFunc ["admin"; "user"; "proxy_admin"; "proxy_admin_viewer"]
    (Str "proxy_admin_viewer") "role"
  = Return ([], ["proxy_admin and proxy_admin_viewer cannot be set to associate a team with an user"]).
Proof.
  refine (proj1 (ValidateFunc_proxy_admin_role _ "proxy_admin_viewer" "role" _ _)).
  - right. reflexivity.
  - do 3 apply list_elem_of_further. apply list_elem_of_here.
Defined.

(** ** Extraction of the declared fields *)

Lemma getTeamMembershipData_Return (d : gmap string iface) (data : TeamMembershipData) :
  getTeamMembershipData d = Return data <->
  Get d "user_id" = Str (UserId data) /\ Get d "role" = Str (Role data)
  /\ Get d "team_id" = Str (TeamId data)
  /\ Get d "max_budget_in_team" = Float64 (MaxBudgetInTeam data).
Proof.
  unfold getTeamMembershipData, mbind, outcome_bind. split.
  - destruct (Get d "user_id"), (Get d "role"), (Get d "team_id"),
      (Get d "max_budget_in_team"); simpl; try discriminate.
    intros [= <-]. done.
  - intros (-> & -> & -> & ->). by destruct data.
Qed.

Lemma getTeamMembershipData_Panic (d : gmap string iface) :
  (forall f : float, Get d "max_budget_in_team" ≠ Float64 f) ->
  getTeamMembershipData d = Panic InterfaceConversion.
Proof.
  intros Hno. unfold getTeamMembershipData, mbind, outcome_bind.
  destruct (Get d "user_id"), (Get d "role"), (Get d "team_id"); simpl; try reflexivity.
  destruct (Get d "max_budget_in_team") as [| |f| |]; simpl; try reflexivity.
  by destruct (Hno f).
Qed.

(** ** The loop of Read *)

Lemma scan_members_no_match (userId : string) (d : gmap string iface)
    (l : list litellm.MemberWithRole) :
  (forall entry, entry ∈ l -> litellm.UserId entry ≠ userId) ->
  scan_members userId d l = None.
Proof.
  induction l as [|entry rest IH]; intros Hno; [reflexivity|].
  cbn [scan_members].
  destruct (String.eqb_spec (litellm.UserId entry) userId) as [Heq|_].
  - destruct (Hno entry); [apply list_elem_of_here | exact Heq].
  - apply IH. intros e He. apply Hno. by apply list_elem_of_further.
Qed.

(** The first entry that carries the user id decides what is written. *)
Lemma scan_members_first_match (userId : string) (d : gmap string iface)
    (pre post : list litellm.MemberWithRole) (entry : litellm.MemberWithRole) :
  (forall e, e ∈ pre -> litellm.UserId e ≠ userId) ->
  litellm.UserId entry = userId ->
  scan_members userId d (pre ++ entry :: post)
  = Some (Set_ (Set_ d "role" (Str (litellm.Role entry)))
               "user_email" (Str (litellm.UserEmail entry))).
Proof.
  intros Hpre Hentry. induction pre as [|e pre IH]; cbn [app scan_members].
  - by rewrite Hentry, String.eqb_refl.
  - destruct (String.eqb_spec (litellm.UserId e) userId) as [Heq|_].
    + destruct (Hpre e); [apply list_elem_of_here | exact Heq].
    + apply IH. intros e' He'. apply Hpre. by apply list_elem_of_further.
Qed.

(** What the two writes of a match leave in the declared state. *)
Lemma Set_role_and_email (d : gmap string iface) (role email key : string) :
  Get (Set_ (Set_ d "role" (Str role)) "user_email" (Str email)) key
  = if String.eqb key "user_email" then Str email
    else if String.eqb key "role" then Str role
    else Get d key.
Proof.
  unfold Get, Set_.
  destruct (String.eqb_spec key "user_email") as [->|Hne1].
  - by rewrite lookup_insert_eq.
  - rewrite lookup_insert_ne by done.
    destruct (String.eqb_spec key "role") as [->|Hne2].
    + by rewrite lookup_insert_eq.
    + by rewrite lookup_insert_ne.
Qed.

(** ** Binary64 comparisons *)

Lemma eqb_zero_not_positive (f : float) :
  (f =? 0)%float = true -> (0 <? f)%float = false.
Proof.
  rewrite FloatAxioms.eqb_spec, FloatAxioms.ltb_spec.
  change (Prim2SF 0) with (S754_zero false).
  by destruct (Prim2SF f) as [s|s| |s m e]; try destruct s.
Qed.

(** ** The bytes of the payloads *)

(** Lists the members of a Go map whose keys are literals. *)
Ltac list_the_map :=
  match goal with
  | |- context [map_to_list ?m] =>
      let l := eval vm_compute in (map_to_list m) in
      change (map_to_list m) with l
  end.

Section PayloadBytes.

Context {enc : LeafEncoder}.

Lemma update_body_without_budget (u r t : string) (b : float) :
  (0 <? b)%float = false ->
  update_body (mkTeamMembershipData u r t b)
  = json_object [("role", encodeString r); ("team_id", encodeString t);
                 ("user_id", encodeString u)].
Proof.
  intros Hb. unfold update_body, update_payload, json_Marshal, go_map.
  cbn [MaxBudgetInTeam UserId Role TeamId]. rewrite Hb.
  list_the_map. reflexivity.
Qed.

Lemma update_body_with_budget (u r t : string) (b : float) :
  (0 <? b)%float = true -> finite b ->
  update_body (mkTeamMembershipData u r t b)
  = json_object [("max_budget_in_team", formatFloat b); ("role", encodeString r);
                 ("team_id", encodeString t); ("user_id", encodeString u)].
Proof.
  intros Hb Hfin. unfold update_body, update_payload, json_Marshal, go_map.
  cbn [MaxBudgetInTeam UserId Role TeamId]. rewrite Hb.
  list_the_map. cbn [marshal]. rewrite Hfin. reflexivity.
Qed.

Lemma create_body_without_budget (u r t : string) (b : float) :
  (0 <? b)%float = false ->
  create_body (mkTeamMembershipData u r t b)
  = json_object
      [("member", json_object [("role", encodeString r); ("user_id", encodeString u)]);
       ("team_id", encodeString t)].
Proof.
  intros Hb. unfold create_body, create_payload, json_Marshal, go_map.
  cbn [MaxBudgetInTeam UserId Role TeamId]. rewrite Hb.
  repeat list_the_map. reflexivity.
Qed.

Lemma create_body_with_budget (u r t : string) (b : float) :
  (0 <? b)%float = true -> finite b ->
  create_body (mkTeamMembershipData u r t b)
  = json_object
      [("max_budget_in_team", formatFloat b);
       ("member", json_object [("role", encodeString r); ("user_id", encodeString u)]);
       ("team_id", encodeString t)].
Proof.
  intros Hb Hfin. unfold create_body, create_payload, json_Marshal, go_map.
  cbn [MaxBudgetInTeam UserId Role TeamId]. rewrite Hb.
  repeat list_the_map. cbn [marshal]. rewrite Hfin. reflexivity.
Qed.

Lemma delete_body_bytes (u r t : string) (b : float) :
  delete_body (mkTeamMembershipData u r t b)
  = json_object [("team_id", encodeString t); ("user_id", encodeString u)].
Proof.
  unfold delete_body, delete_payload, json_Marshal, go_map.
  cbn [UserId TeamId]. list_the_map. reflexivity.
Qed.

End PayloadBytes.

(** ** Runs of the team-membership handlers *)

Ltac run_handler :=
  unfold mbind, handler_bind, mret, handler_ret, pure_step, client_NewRequest, http_Do;
  cbn [fst snd assert_client deref app].

(** Case analysis on the next call whose result a handler's run waits for. *)
Ltac split_call :=
  match goal with
  | |- context [json_Marshal ?j] => destruct (json_Marshal j) as [? ?]
  | |- context [NewRequest ?c ?m ?u ?b] => destruct (NewRequest c m u b) as [[?|] ?]
  | |- context [decode_body ?b] => destruct (decode_body b) as [? ?]
  | remote : Request -> option Response * error |- context [?f ?r] =>
      constr_eq f remote; destruct (remote r) as [[?|] ?]
  end; cbn [fst snd deref app].

Section HandlerProperties.

Context {enc : LeafEncoder}.
Variable remote : Request -> option Response * error.

(** Once the request is built and answered, a mutating handler returns the
    declared state as it was and the empty diagnostics, whatever the status
    of the response. *)
Lemma Create_run d c data req e1 resp e2 :
  getTeamMembershipData d = Return data ->
  NewRequest c "POST" (ApiBaseURL c +:+ "/team/member_add") (Some (create_body data))
    = (Some req, e1) ->
  remote req = (Some resp, e2) ->
  resourceTeamMembershipCreate remote d (ClientPtr (Some c)) =
    (Return (d, []),
     [BuildRequest "POST" (ApiBaseURL c +:+ "/team/member_add") (Some (create_body data));
      SendRequest req]).
Proof.
  intros Hdata Hreq Hresp. unfold create_body in *.
  unfold resourceTeamMembershipCreate. run_handler. rewrite Hdata. run_handler.
  destruct (json_Marshal (go_map (create_payload data))) as [body err].
  cbn [fst snd] in *. rewrite Hreq. cbn [fst snd]. by rewrite Hresp.
Qed.

Lemma Update_run d c data req e1 resp e2 :
  getTeamMembershipData d = Return data ->
  NewRequest c "POST" (ApiBaseURL c +:+ "/team/member_update") (Some (update_body data))
    = (Some req, e1) ->
  remote req = (Some resp, e2) ->
  resourceTeamMembershipUpdate remote d (ClientPtr (Some c)) =
    (Return (d, []),
     [BuildRequest "POST" (ApiBaseURL c +:+ "/team/member_update") (Some (update_body data));
      SendRequest req]).
Proof.
  intros Hdata Hreq Hresp. unfold update_body in *.
  unfold resourceTeamMembershipUpdate. run_handler. rewrite Hdata. run_handler.
  destruct (json_Marshal (go_map (update_payload data))) as [body err].
  cbn [fst snd] in *. rewrite Hreq. cbn [fst snd]. by rewrite Hresp.
Qed.

Lemma Delete_run d c data req e1 resp e2 :
  getTeamMembershipData d = Return data ->
  NewRequest c "POST" (ApiBaseURL c +:+ "/team/member_delete") (Some (delete_body data))
    = (Some req, e1) ->
  remote req = (Some resp, e2) ->
  resourceTeamMembershipDelete remote d (ClientPtr (Some c)) =
    (Return (d, []),
     [BuildRequest "POST" (ApiBaseURL c +:+ "/team/member_delete") (Some (delete_body data));
      SendRequest req]).
Proof.
  intros Hdata Hreq Hresp. unfold delete_body in *.
  unfold resourceTeamMembershipDelete. run_handler. rewrite Hdata. run_handler.
  destruct (json_Marshal (go_map (delete_payload data))) as [body err].
  cbn [fst snd] in *. rewrite Hreq. cbn [fst snd]. by rewrite Hresp.
Qed.

(** Read never enters the body of its loop: the slice it ranges over is the
    nil slice it declared, since [json.Unmarshal] was given the slice and
    not a pointer to it. *)
Lemma Read_run d c data req e1 resp e2 :
  getTeamMembershipData d = Return data ->
  NewRequest c "GET" (ApiBaseURL c +:+ "/team/info?team_id=" +:+ TeamId data) None
    = (Some req, e1) ->
  remote req = (Some resp, e2) ->
  resourceTeamMembershipRead remote d (ClientPtr (Some c)) =
    (Return (d, []),
     [BuildRequest "GET" (ApiBaseURL c +:+ "/team/info?team_id=" +:+ TeamId data) None;
      SendRequest req]).
Proof.
  intros Hdata Hreq Hresp.
  unfold resourceTeamMembershipRead. run_handler. rewrite Hdata. run_handler.
  rewrite Hreq. cbn [fst snd]. rewrite Hresp. cbn [fst snd deref].
  destruct (decode_body (Body resp)) as [respJsonBody err].
  destruct (json_Marshal (index respJsonBody "members_with_roles")) as [bytes err'].
  reflexivity.
Qed.

(** A handler that cannot extract the declared fields panics before it
    calls anything, whatever the provider handle. *)
Lemma extraction_panic_propagates d m :
  getTeamMembershipData d = Panic InterfaceConversion ->
  resourceTeamMembershipCreate remote d m = (Panic InterfaceConversion, [])
  /\ resourceTeamMembershipRead remote d m = (Panic InterfaceConversion, [])
  /\ resourceTeamMembershipUpdate remote d m = (Panic InterfaceConversion, [])
  /\ resourceTeamMembershipDelete remote d m = (Panic InterfaceConversion, []).
Proof.
  intros Hd.
  unfold resourceTeamMembershipCreate, resourceTeamMembershipRead,
    resourceTeamMembershipUpdate, resourceTeamMembershipDelete.
  destruct m as [c|v]; run_handler; rewrite ?Hd; done.
Qed.

(** No team-membership handler ever returns a diagnostic: whenever one
    returns, it returns the declared state as it was and the empty
    diagnostics. *)
Lemma handlers_never_report d m d' diags :
  (resourceTeamMembershipCreate remote d m).1 = Return (d', diags)
  \/ (resourceTeamMembershipRead remote d m).1 = Return (d', diags)
  \/ (resourceTeamMembershipUpdate remote d m).1 = Return (d', diags)
  \/ (resourceTeamMembershipDelete remote d m).1 = Return (d', diags) ->
  d' = d /\ diags = [].
Proof.
  unfold resourceTeamMembershipCreate, resourceTeamMembershipRead,
    resourceTeamMembershipUpdate, resourceTeamMembershipDelete.
  intros [Hr|[Hr|[Hr|Hr]]]; revert Hr;
    (destruct m as [c|v]; [destruct (getTeamMembershipData d) as [data|p], c as [c|]|]);
    run_handler; repeat split_call;
    cbn [json_Unmarshal_nonpointer scan_members fst snd];
    try (intros Hr; discriminate Hr); by intros [= <- <-].
Qed.

(** C3: when no entry of the [members_with_roles] array of the response
    carries the declared user id, Read returns the declared state as it was
    and no diagnostic, after one request built and sent. *)
Theorem Read_no_match_leaves_state d c data req e1 resp e2 :
  getTeamMembershipData d = Return data ->
  NewRequest c "GET" (ApiBaseURL c +:+ "/team/info?team_id=" +:+ TeamId data) None
    = (Some req, e1) ->
  remote req = (Some resp, e2) ->
  (forall entry, entry ∈ response_members resp -> litellm.UserId entry ≠ UserId data) ->
  resourceTeamMembershipRead remote d (ClientPtr (Some c)) =
    (Return (d, []),
     [BuildRequest "GET" (ApiBaseURL c +:+ "/team/info?team_id=" +:+ TeamId data) None;
      SendRequest req]).
Proof. intros Hdata Hreq Hresp _. by eapply Read_run. Qed.

(** C4: Create and Update hand to the client the marshalled payload.  When
    the declared budget equals 0, the payload has no [max_budget_in_team]
    member, and the bytes are those of the other members alone.  When the
    budget is greater than 0, the payload has the member, with the declared
    value, and (the budget being finite) the bytes carry it first. *)
Theorem budget_member_of_payloads d c data :
  getTeamMembershipData d = Return data ->
  (exists rest,
     (resourceTeamMembershipCreate remote d (ClientPtr (Some c))).2 =
       BuildRequest "POST" (ApiBaseURL c +:+ "/team/member_add")
         (Some (create_body data)) :: rest)
  /\ (exists rest,
     (resourceTeamMembershipUpdate remote d (ClientPtr (Some c))).2 =
       BuildRequest "POST" (ApiBaseURL c +:+ "/team/member_update")
         (Some (update_body data)) :: rest)
  /\ ((MaxBudgetInTeam data =? 0)%float = true ->
      create_payload data !! "max_budget_in_team" = None
      /\ update_payload data !! "max_budget_in_team" = None
      /\ create_body data =
           json_object
             [("member", json_object [("role", encodeString (Role data));
                                      ("user_id", encodeString (UserId data))]);
              ("team_id", encodeString (TeamId data))]
      /\ update_body data =
           json_object
             [("role", encodeString (Role data));
              ("team_id", encodeString (TeamId data));
              ("user_id", encodeString (UserId data))])
  /\ ((0 <? MaxBudgetInTeam data)%float = true ->
      create_payload data !! "max_budget_in_team" = Some (JNum (MaxBudgetInTeam data))
      /\ update_payload data !! "max_budget_in_team" = Some (JNum (MaxBudgetInTeam data))
      /\ (finite (MaxBudgetInTeam data) ->
          create_body data =
            json_object
              [("max_budget_in_team", formatFloat (MaxBudgetInTeam data));
               ("member", json_object [("role", encodeString (Role data));
                                       ("user_id", encodeString (UserId data))]);
               ("team_id", encodeString (TeamId data))]
          /\ update_body data =
            json_object
              [("max_budget_in_team", formatFloat (MaxBudgetInTeam data));
               ("role", encodeString (Role data));
               ("team_id", encodeString (TeamId data));
               ("user_id", encodeString (UserId data))])).
Proof.
  intros Hdata. split; [|split; [|split]].
  - unfold resourceTeamMembershipCreate, create_body. run_handler.
    rewrite Hdata. run_handler.
    destruct (json_Marshal (go_map (create_payload data))) as [body err].
    destruct (NewRequest c _ _ _) as [req e1].
    destruct req as [r|]; [destruct (remote r) as [[resp|] e2]|]; eexists; reflexivity.
  - unfold resourceTeamMembershipUpdate, update_body. run_handler.
    rewrite Hdata. run_handler.
    destruct (json_Marshal (go_map (update_payload data))) as [body err].
    destruct (NewRequest c _ _ _) as [req e1].
    destruct req as [r|]; [destruct (remote r) as [[resp|] e2]|]; eexists; reflexivity.
  - intros Hzero. apply eqb_zero_not_positive in Hzero.
    destruct data as [u r t b]. cbn [MaxBudgetInTeam UserId Role TeamId] in *.
    split; [|split; [|split]].
    + unfold create_payload. cbn [MaxBudgetInTeam]. rewrite Hzero.
      rewrite lookup_insert_ne by discriminate. by apply lookup_singleton_ne.
    + unfold update_payload. cbn [MaxBudgetInTeam]. rewrite Hzero.
      rewrite !lookup_insert_ne by discriminate. by apply lookup_singleton_ne.
    + by apply create_body_without_budget.
    + by apply update_body_without_budget.
  - intros Hpos.
    destruct data as [u r t b]. cbn [MaxBudgetInTeam UserId Role TeamId] in *.
    split; [|split].
    + unfold create_payload. cbn [MaxBudgetInTeam]. rewrite Hpos. apply lookup_insert_eq.
    + unfold update_payload. cbn [MaxBudgetInTeam]. rewrite Hpos. apply lookup_insert_eq.
    + intros Hfin. split.
      * by apply create_body_with_budget.
      * by apply update_body_with_budget.
Qed.

(** C10: every team-membership handler starts by asserting that the
    accessor's value for [max_budget_in_team], a field the schema does not
    declare, is a [float64].  When the accessor does not hand out a
    [float64] for that key, the extraction panics, and so does each of the
    four handlers, before it calls anything: the extraction returns only
    under that precondition. *)
Theorem extraction_needs_float64_budget d :
  (forall f : float, Get d "max_budget_in_team" ≠ Float64 f) ->
  getTeamMembershipData d = Panic InterfaceConversion
  /\ forall m : meta,
       resourceTeamMembershipCreate remote d m = (Panic InterfaceConversion, [])
       /\ resourceTeamMembershipRead remote d m = (Panic InterfaceConversion, [])
       /\ resourceTeamMembershipUpdate remote d m = (Panic InterfaceConversion, [])
       /\ resourceTeamMembershipDelete remote d m = (Panic InterfaceConversion, []).
Proof.
  intros Hno. pose proof (getTeamMembershipData_Panic d Hno) as Hpanic.
  split; [exact Hpanic|]. intros m. by apply extraction_panic_propagates.
Qed.

End HandlerProperties.

(** C8: two invocations of Update on the same declared input (user id,
    role, team id and budget), each answered with status 200, hand
    byte-identical bodies to the client, and each returns the empty
    diagnostics after one request built and sent.  The two invocations may
    differ in everything else: the other fields of the declared state, the
    client, the remote. *)
Theorem Update_twice_same_payload {enc : LeafEncoder}
    (remote1 remote2 : Request -> option Response * error)
    (d1 d2 : gmap string iface) (c1 c2 : LitellmClient) (data : TeamMembershipData)
    (req1 req2 : Request) (resp1 resp2 : Response) (e1 e2 e1' e2' : error) :
  getTeamMembershipData d1 = Return data ->
  getTeamMembershipData d2 = Return data ->
  NewRequest c1 "POST" (ApiBaseURL c1 +:+ "/team/member_update") (Some (update_body data))
    = (Some req1, e1) ->
  NewRequest c2 "POST" (ApiBaseURL c2 +:+ "/team/member_update") (Some (update_body data))
    = (Some req2, e2) ->
  remote1 req1 = (Some resp1, e1') ->
  remote2 req2 = (Some resp2, e2') ->
  StatusCode resp1 = StatusOK ->
  StatusCode resp2 = StatusOK ->
  resourceTeamMembershipUpdate remote1 d1 (ClientPtr (Some c1)) =
    (Return (d1, []),
     [BuildRequest "POST" (ApiBaseURL c1 +:+ "/team/member_update") (Some (update_body data));
      SendRequest req1])
  /\ resourceTeamMembershipUpdate remote2 d2 (ClientPtr (Some c2)) =
    (Return (d2, []),
     [BuildRequest "POST" (ApiBaseURL c2 +:+ "/team/member_update") (Some (update_body data));
      SendRequest req2])
  /\ built_bodies (resourceTeamMembershipUpdate remote1 d1 (ClientPtr (Some c1))).2
     = built_bodies (resourceTeamMembershipUpdate remote2 d2 (ClientPtr (Some c2))).2.
Proof.
  intros Hd1 Hd2 Hreq1 Hreq2 Hresp1 Hresp2 _ _.
  pose proof (Update_run remote1 d1 c1 data req1 e1 resp1 e1' Hd1 Hreq1 Hresp1) as Hrun1.
  pose proof (Update_run remote2 d2 c2 data req2 e2 resp2 e2' Hd2 Hreq2 Hresp2) as Hrun2.
  rewrite Hrun1, Hrun2. done.
Qed.

(** ** The user handlers *)

(** C9: each of the four user handlers, given the provider's client as
    handle, calls nothing outside (its trace is empty), returns the empty
    diagnostics, and returns the declared state as it was. *)
Theorem user_handlers_do_nothing (d : gmap string iface) (c : option LitellmClient) :
  resourceUserCreate d (ClientPtr c) = (Return (d, []), [])
  /\ resourceUserRead d (ClientPtr c) = (Return (d, []), [])
  /\ resourceUserUpdate d (ClientPtr c) = (Return (d, []), [])
  /\ resourceUserDelete d (ClientPtr c) = (Return (d, []), []).
Proof. done. Qed.

(** On a handle that is not the provider's client, the unchecked assertion
    on the handle panics, in the user handlers as in the others. *)
Lemma user_handlers_foreign_handle (d : gmap string iface) (v : iface) :
  resourceUserCreate d (NotClient v) = (Panic InterfaceConversion, [])
  /\ resourceUserRead d (NotClient v) = (Panic InterfaceConversion, [])
  /\ resourceUserUpdate d (NotClient v) = (Panic InterfaceConversion, [])
  /\ resourceUserDelete d (NotClient v) = (Panic InterfaceConversion, []).
Proof. done. Qed.

(** ** The handlers on sample inputs *)

Lemma declared_extracts (userId role : string) (budget : float) :
  getTeamMembershipData (declared userId role budget)
  = Return (mkTeamMembershipData userId role "t1" budget).
Proof. by apply getTeamMembershipData_Return. Qed.

Lemma response_members_team_info (status : Z) :
  response_members (mkResponse status (Some team_info))
  = [litellm.mkMemberWithRole "u1" "member" "a@x.com";
     litellm.mkMemberWithRole "u2" "admin" ""].
Proof. reflexivity. Qed.

(** C1, on the code: answered with status 403, Create, Update and Delete
    return the empty diagnostics; the diagnostic that carries the status
    code is computed and dropped. *)
Theorem mutations_on_403_return_no_diagnostic :
  (@resourceTeamMembershipCreate sample_encoder (answering 403 None)
     (declared "u2" "admin" 0) (ClientPtr (Some sample_client))).1
    = Return (declared "u2" "admin" 0, [])
  /\ (@resourceTeamMembershipUpdate sample_encoder (answering 403 None)
        (declared "u2" "admin" 0) (ClientPtr (Some sample_client))).1
    = Return (declared "u2" "admin" 0, [])
  /\ (@resourceTeamMembershipDelete sample_encoder (answering 403 None)
        (declared "u2" "admin" 0) (ClientPtr (Some sample_client))).1
    = Return (declared "u2" "admin" 0, [])
  /\ diag_Errorf (status_message 403)
    = [mkDiagnostic Error
         "API request to create team membership has failed with status code 403"].
Proof.
  split; [|split; [|split]].
  - by erewrite Create_run; [| apply declared_extracts | reflexivity | reflexivity].
  - by erewrite Update_run; [| apply declared_extracts | reflexivity | reflexivity].
  - by erewrite Delete_run; [| apply declared_extracts | reflexivity | reflexivity].
  - reflexivity.
Qed.

(** C2, on the code: the response of the spec's example lists [u2] as
    [admin], and the loop of Read, run on the entries of that response,
    would write [role = admin] and an empty [user_email]; Read itself, on
    declared user [u2] with role [member], returns the declared state as it
    was, with the role still [member] and no [user_email]. *)
Theorem Read_of_listed_member_writes_nothing :
  response_members (mkResponse 200 (Some team_info))
    = [litellm.mkMemberWithRole "u1" "member" "a@x.com";
       litellm.mkMemberWithRole "u2" "admin" ""]
  /\ scan_members "u2" (declared "u2" "member" 0)
       (response_members (mkResponse 200 (Some team_info)))
    = Some (Set_ (Set_ (declared "u2" "member" 0) "role" (Str "admin"))
                 "user_email" (Str ""))
  /\ (@resourceTeamMembershipRead sample_encoder (answering 200 (Some team_info))
        (declared "u2" "member" 0) (ClientPtr (Some sample_client))).1
    = Return (declared "u2" "member" 0, [])
  /\ Get (declared "u2" "member" 0) "role" = Str "member"
  /\ Get (declared "u2" "member" 0) "user_email" = Nil.
Proof.
  split; [|split; [|split; [|split]]].
  - apply response_members_team_info.
  - reflexivity.
  - by erewrite Read_run; [| apply declared_extracts | reflexivity | reflexivity].
  - reflexivity.
  - reflexivity.
Qed.

(** C7, on the code: when the remote cannot be reached, and when the
    client cannot build the request, each handler panics on a nil pointer
    (the response, or the request) instead of returning the error. *)
Theorem transport_failure_panics :
  @resourceTeamMembershipCreate sample_encoder unreachable
     (declared "u2" "admin" 0) (ClientPtr (Some sample_client))
    = (Panic NilDereference,
       [BuildRequest "POST" "https://llm.example/team/member_add"
          (Some (@create_body sample_encoder (mkTeamMembershipData "u2" "admin" "t1" 0)));
        SendRequest
          (mkRequest "POST" "https://llm.example/team/member_add"
             [("Content-Type", "application/json")]
             (Some (@create_body sample_encoder (mkTeamMembershipData "u2" "admin" "t1" 0))))])
  /\ (@resourceTeamMembershipRead sample_encoder unreachable
        (declared "u2" "admin" 0) (ClientPtr (Some sample_client))).1
    = Panic NilDereference
  /\ (@resourceTeamMembershipUpdate sample_encoder unreachable
        (declared "u2" "admin" 0) (ClientPtr (Some sample_client))).1
    = Panic NilDereference
  /\ (@resourceTeamMembershipDelete sample_encoder unreachable
        (declared "u2" "admin" 0) (ClientPtr (Some sample_client))).1
    = Panic NilDereference
  /\ @resourceTeamMembershipDelete sample_encoder (answering 200 None)
        (declared "u2" "admin" 0) (ClientPtr (Some failing_client))
    = (Panic NilDereference,
       [BuildRequest "POST" "https://llm.example/team/member_delete"
          (Some (@delete_body sample_encoder (mkTeamMembershipData "u2" "admin" "t1" 0)))])
  /\ diag_FromErr (Some "dial tcp: connection refused")
    = [mkDiagnostic Error "dial tcp: connection refused"].
Proof. repeat split; vm_compute; reflexivity. Qed.

(** ** The theorems at sample inputs *)

Lemma Read_no_match_leaves_state_witness :
  (forall entry,
     entry ∈ response_members (mkResponse 200 (Some team_info)) ->
     litellm.UserId entry ≠ "u3")
  /\ @resourceTeamMembershipRead sample_encoder (answering 200 (Some team_info))
       (declared "u3" "member" 0) (ClientPtr (Some sample_client))
     = (Return (declared "u3" "member" 0, []),
        [BuildRequest "GET" "https://llm.example/team/info?team_id=t1" None;
         SendRequest
           (mkRequest "GET" "https://llm.example/team/info?team_id=t1"
              [("Content-Type", "application/json")] None)]).
Proof.
  assert (Hno : forall entry,
             entry ∈ response_members (mkResponse 200 (Some team_info)) ->
             litellm.UserId entry ≠ "u3").
  { intros entry Hin. rewrite response_members_team_info in Hin.
    repeat (apply elem_of_cons in Hin as [-> | Hin]; [discriminate|]).
    by apply elem_of_nil in Hin. }
  split; [exact Hno|].
  apply (Read_no_match_leaves_state (answering 200 (Some team_info))
           (declared "u3" "member" 0) sample_client
           (mkTeamMembershipData "u3" "member" "t1" 0)
           (mkRequest "GET" "https://llm.example/team/info?team_id=t1"
              [("Content-Type", "application/json")] None)
           None (mkResponse 200 (Some team_info)) None).
  - vm_compute. reflexivity.
  - reflexivity.
  - reflexivity.
  - exact Hno.
Defined.

Lemma budget_member_of_payloads_witness :
  (create_payload (mkTeamMembershipData "u2" "admin" "t1" 0) !! "max_budget_in_team" = None
   /\ update_payload (mkTeamMembershipData "u2" "admin" "t1" 0) !! "max_budget_in_team" = None)
  /\ (create_payload (mkTeamMembershipData "u2" "admin" "t1" 12.5) !! "max_budget_in_team"
        = Some (JNum 12.5)
      /\ update_payload (mkTeamMembershipData "u2" "admin" "t1" 12.5) !! "max_budget_in_team"
        = Some (JNum 12.5)
      /\ @update_body sample_encoder (mkTeamMembershipData "u2" "admin" "t1" 12.5)
        = @json_object sample_encoder
            [("max_budget_in_team", "12.5"); ("role", quote +:+ "admin" +:+ quote);
             ("team_id", quote +:+ "t1" +:+ quote); ("user_id", quote +:+ "u2" +:+ quote)]).
Proof.
  assert (Hd0 : getTeamMembershipData (declared "u2" "admin" 0)
                = Return (mkTeamMembershipData "u2" "admin" "t1" 0))
    by (vm_compute; reflexivity).
  assert (Hd1 : getTeamMembershipData (declared "u2" "admin" 12.5)
                = Return (mkTeamMembershipData "u2" "admin" "t1" 12.5))
    by (vm_compute; reflexivity).
  pose proof (@budget_member_of_payloads sample_encoder unreachable _ sample_client _ Hd0)
    as (_ & _ & Hzero & _).
  pose proof (@budget_member_of_payloads sample_encoder unreachable _ sample_client _ Hd1)
    as (_ & _ & _ & Hpos).
  specialize (Hzero eq_refl) as (Hc0 & Hu0 & _).
  specialize (Hpos eq_refl) as (Hc1 & Hu1 & Hbytes).
  specialize (Hbytes eq_refl) as (_ & Hub).
  repeat split; assumption.
Defined.

Lemma Update_twice_same_payload_witness :
  built_bodies
    (@resourceTeamMembershipUpdate sample_encoder (answering 200 None)
       (declared "u2" "admin" 12.5) (ClientPtr (Some sample_client))).2
  = built_bodies
      (@resourceTeamMembershipUpdate sample_encoder (answering 200 (Some JNull))
         (<["user_email" := Str "b@x.com"]> (declared "u2" "admin" 12.5))
         (ClientPtr (Some sample_client))).2.
Proof.
  refine (proj2 (proj2
    (@Update_twice_same_payload sample_encoder
       (answering 200 None) (answering 200 (Some JNull))
       (declared "u2" "admin" 12.5)
       (<["user_email" := Str "b@x.com"]> (declared "u2" "admin" 12.5))
       sample_client sample_client (mkTeamMembershipData "u2" "admin" "t1" 12.5)
       _ _ (mkResponse 200 None) (mkResponse 200 (Some JNull)) None None None None
       _ _ _ _ _ _ _ _))).
  - vm_compute. reflexivity.
  - vm_compute. reflexivity.
  - reflexivity.
  - reflexivity.
  - reflexivity.
  - reflexivity.
  - reflexivity.
  - reflexivity.
Defined.

Lemma extraction_needs_float64_budget_witness :
  Get declared_by_schema "max_budget_in_team" = Nil
  /\ getTeamMembershipData declared_by_schema = Panic InterfaceConversion
  /\ @resourceTeamMembershipRead sample_encoder (answering 200 (Some team_info))
       declared_by_schema (ClientPtr (Some sample_client))
     = (Panic InterfaceConversion, []).
Proof.
  assert (Hno : forall f : float, Get declared_by_schema "max_budget_in_team" ≠ Float64 f)
    by (intros f Heq; vm_compute in Heq; discriminate Heq).
  pose proof (@extraction_needs_float64_budget sample_encoder
                (answering 200 (Some team_info)) declared_by_schema Hno) as [Hget Hops].
  split; [reflexivity|]. split; [exact Hget|].
  exact (proj1 (proj2 (Hops (ClientPtr (Some sample_client))))).
Defined.

(** * Further properties of the handlers *)

(** ** Binary64: a positive number is not a NaN *)

Lemma positive_not_nan (f : float) :
  (0 <? f)%float = true -> PrimFloat.is_nan f = false.
Proof.
  unfold PrimFloat.is_nan.
  rewrite FloatAxioms.eqb_spec, FloatAxioms.ltb_spec.
  change (Prim2SF 0) with (S754_zero false).
  destruct (Prim2SF f) as [s|s| |s m e]; try destruct s; try discriminate;
    intros _; try reflexivity.
  unfold SFeqb, SFcompare. by rewrite Z.compare_refl, Pos.compare_cont_refl.
Qed.

Lemma json_object_not_empty {enc : LeafEncoder} (members : list (string * string)) :
  json_object members ≠ "".
Proof. unfold json_object. discriminate. Qed.

Lemma and_swap (A B : Prop) : B -> A -> A /\ B.
Proof. by split. Qed.

(** Case analysis on the next call of a run, keeping what the client
    answered. *)
Ltac split_call_eqn :=
  match goal with
  | |- context [json_Marshal ?j] => destruct (json_Marshal j) as [? ?] eqn:?
  | |- context [NewRequest ?c ?m ?u ?b] =>
      destruct (NewRequest c m u b) as [[?|] ?] eqn:?
  | |- context [decode_body ?b] => destruct (decode_body b) as [? ?]
  | remote : Request -> option Response * error |- context [?f ?r] =>
      constr_eq f remote; destruct (remote r) as [[?|] ?] eqn:?
  end; cbn [fst snd deref app].

Section FurtherHandlerProperties.

Context {enc : LeafEncoder}.
Variable remote : Request -> option Response * error.

(** X1: whatever the declared state, the handle and the remote, a
    team-membership handler that returns hands back the declared state as it
    was and the empty diagnostics: no handler ever reports an error or
    writes a field. *)
Theorem handlers_return_state_and_no_diagnostic (d : gmap string iface) (m : meta) :
  match (resourceTeamMembershipCreate remote d m).1 with
  | Return r => r = (d, []) | Panic _ => True end
  /\ match (resourceTeamMembershipRead remote d m).1 with
     | Return r => r = (d, []) | Panic _ => True end
  /\ match (resourceTeamMembershipUpdate remote d m).1 with
     | Return r => r = (d, []) | Panic _ => True end
  /\ match (resourceTeamMembershipDelete remote d m).1 with
     | Return r => r = (d, []) | Panic _ => True end.
Proof.
  repeat split.
  - destruct (resourceTeamMembershipCreate remote d m).1 as [[d' diags]|p] eqn:E; [|done].
    destruct (handlers_never_report remote d m d' diags) as [-> ->]; auto.
  - destruct (resourceTeamMembershipRead remote d m).1 as [[d' diags]|p] eqn:E; [|done].
    destruct (handlers_never_report remote d m d' diags) as [-> ->]; auto.
  - destruct (resourceTeamMembershipUpdate remote d m).1 as [[d' diags]|p] eqn:E; [|done].
    destruct (handlers_never_report remote d m d' diags) as [-> ->]; auto.
  - destruct (resourceTeamMembershipDelete remote d m).1 as [[d' diags]|p] eqn:E; [|done].
    destruct (handlers_never_report remote d m d' diags) as [-> ->]; auto 6.
Qed.

(** X2: a team-membership handler makes one exchange at most.  Its trace is
    empty, or one request built by the client, or one request built and that
    same request sent once; nothing is sent twice, nothing is sent that the
    client did not build.  Create, Update and Delete build a POST with a
    body, Read a GET without one. *)
Theorem handlers_make_one_exchange (d : gmap string iface) (m : meta) :
  single_exchange m "POST" true (resourceTeamMembershipCreate remote d m).2
  /\ single_exchange m "GET" false (resourceTeamMembershipRead remote d m).2
  /\ single_exchange m "POST" true (resourceTeamMembershipUpdate remote d m).2
  /\ single_exchange m "POST" true (resourceTeamMembershipDelete remote d m).2.
Proof.
  unfold resourceTeamMembershipCreate, resourceTeamMembershipRead,
    resourceTeamMembershipUpdate, resourceTeamMembershipDelete.
  repeat split;
    (destruct m as [c|v]; [destruct (getTeamMembershipData d) as [data|p], c as [c|]|]);
    run_handler; try (by left);
    repeat split_call_eqn;
    cbn [json_Unmarshal_nonpointer scan_members fst snd];
    right; eexists c, _, _; (split; [reflexivity|]);
    (apply and_swap;
     [ solve [ left; eexists; eauto | right; eexists _, _; eauto ] | reflexivity ]).
Qed.

(** The bytes when [json.Marshal] refuses the budget. *)
Lemma create_body_infinite (u r t : string) (b : float) :
  (0 <? b)%float = true -> PrimFloat.is_infinity b = true ->
  create_body (mkTeamMembershipData u r t b) = "".
Proof.
  intros Hb Hinf. unfold create_body, create_payload, json_Marshal, go_map.
  cbn [MaxBudgetInTeam UserId Role TeamId]. rewrite Hb.
  repeat list_the_map. cbn [marshal]. rewrite Hinf, orb_true_r. reflexivity.
Qed.

Lemma update_body_infinite (u r t : string) (b : float) :
  (0 <? b)%float = true -> PrimFloat.is_infinity b = true ->
  update_body (mkTeamMembershipData u r t b) = "".
Proof.
  intros Hb Hinf. unfold update_body, update_payload, json_Marshal, go_map.
  cbn [MaxBudgetInTeam UserId Role TeamId]. rewrite Hb.
  list_the_map. cbn [marshal]. rewrite Hinf, orb_true_r. reflexivity.
Qed.

(** X3: the bytes Create and Update hand to the client, for every budget.
    A budget that is not greater than 0 (zero, negative or NaN) is left out
    of the object; a finite budget greater than 0 comes first in it; and for
    the budget plus infinity [json.Marshal] fails, its error is dropped, and
    the body is empty: the body is empty in that case only. *)
Theorem bodies_for_every_budget (data : TeamMembershipData) :
  create_body data =
    (if (0 <? MaxBudgetInTeam data)%float
     then if PrimFloat.is_infinity (MaxBudgetInTeam data) then ""
          else json_object
                 [("max_budget_in_team", formatFloat (MaxBudgetInTeam data));
                  ("member", json_object [("role", encodeString (Role data));
                                          ("user_id", encodeString (UserId data))]);
                  ("team_id", encodeString (TeamId data))]
     else json_object
            [("member", json_object [("role", encodeString (Role data));
                                     ("user_id", encodeString (UserId data))]);
             ("team_id", encodeString (TeamId data))])
  /\ update_body data =
    (if (0 <? MaxBudgetInTeam data)%float
     then if PrimFloat.is_infinity (MaxBudgetInTeam data) then ""
          else json_object
                 [("max_budget_in_team", formatFloat (MaxBudgetInTeam data));
                  ("role", encodeString (Role data));
                  ("team_id", encodeString (TeamId data));
                  ("user_id", encodeString (UserId data))]
     else json_object
            [("role", encodeString (Role data));
             ("team_id", encodeString (TeamId data));
             ("user_id", encodeString (UserId data))])
  /\ (create_body data = "" <->
      (0 <? MaxBudgetInTeam data)%float = true
      /\ PrimFloat.is_infinity (MaxBudgetInTeam data) = true)
  /\ (update_body data = "" <->
      (0 <? MaxBudgetInTeam data)%float = true
      /\ PrimFloat.is_infinity (MaxBudgetInTeam data) = true).
Proof.
  destruct data as [u r t b]. cbn [MaxBudgetInTeam UserId Role TeamId].
  destruct (0 <? b)%float eqn:Hpos.
  - pose proof (positive_not_nan b Hpos) as Hnan.
    destruct (PrimFloat.is_infinity b) eqn:Hinf.
    + rewrite create_body_infinite, update_body_infinite by done. by repeat split.
    + assert (Hfin : finite b) by (unfold finite; by rewrite Hnan, Hinf).
      rewrite create_body_with_budget, update_body_with_budget by done.
      do 2 (split; [reflexivity|]).
      split; (split; [intros Hempty; by apply json_object_not_empty in Hempty
                     | intros [_ Hno]; discriminate Hno]).
  - rewrite create_body_without_budget, update_body_without_budget by done.
    do 2 (split; [reflexivity|]).
    split; (split; [intros Hempty; by apply json_object_not_empty in Hempty
                   | intros [Hno _]; discriminate Hno]).
Qed.

(** X4: Delete hands to the client an object of the team id and the user
    id alone, and [json.Marshal] never fails on it: the role and the budget
    of the declared state have no part in the request. *)
Theorem Delete_sends_the_ids_alone (d : gmap string iface) (c : LitellmClient)
    (data : TeamMembershipData) :
  getTeamMembershipData d = Return data ->
  exists rest,
    (resourceTeamMembershipDelete remote d (ClientPtr (Some c))).2 =
      BuildRequest "POST" (ApiBaseURL c +:+ "/team/member_delete")
        (Some (json_object [("team_id", encodeString (TeamId data));
                            ("user_id", encodeString (UserId data))])) :: rest.
Proof.
  intros Hdata. destruct data as [u r t b]. cbn [UserId TeamId].
  rewrite <- (delete_body_bytes u r t b). unfold delete_body.
  unfold resourceTeamMembershipDelete. run_handler. rewrite Hdata. run_handler.
  destruct (json_Marshal (go_map (delete_payload _))) as [body err].
  destruct (NewRequest c _ _ _) as [req e1]. cbn [fst snd].
  destruct req as [req|]; [destruct (remote req) as [[resp|] e2]|]; eexists; reflexivity.
Qed.

(** X5: what decides the outcome of a handler that has extracted its
    fields from a client that is not nil.  It returns, with the declared
    state as it was and no diagnostic, exactly when the client yields a
    request and the remote a response; otherwise it panics on a nil pointer.
    The errors that come with the request and the response, the status of
    the response and its body play no part. *)
Theorem outcome_is_decided_by_the_exchange (d : gmap string iface) (c : LitellmClient)
    (data : TeamMembershipData) :
  getTeamMembershipData d = Return data ->
  (resourceTeamMembershipCreate remote d (ClientPtr (Some c))).1 =
    (if answered remote c "POST" (ApiBaseURL c +:+ "/team/member_add")
          (Some (create_body data))
     then Return (d, []) else Panic NilDereference)
  /\ (resourceTeamMembershipRead remote d (ClientPtr (Some c))).1 =
    (if answered remote c "GET" (ApiBaseURL c +:+ "/team/info?team_id=" +:+ TeamId data) None
     then Return (d, []) else Panic NilDereference)
  /\ (resourceTeamMembershipUpdate remote d (ClientPtr (Some c))).1 =
    (if answered remote c "POST" (ApiBaseURL c +:+ "/team/member_update")
          (Some (update_body data))
     then Return (d, []) else Panic NilDereference)
  /\ (resourceTeamMembershipDelete remote d (ClientPtr (Some c))).1 =
    (if answered remote c "POST" (ApiBaseURL c +:+ "/team/member_delete")
          (Some (delete_body data))
     then Return (d, []) else Panic NilDereference).
Proof.
  intros Hdata.
  unfold resourceTeamMembershipCreate, resourceTeamMembershipRead,
    resourceTeamMembershipUpdate, resourceTeamMembershipDelete,
    create_body, update_body, delete_body, answered.
  repeat split; run_handler; rewrite Hdata; run_handler;
    repeat split_call; reflexivity.
Qed.


End FurtherHandlerProperties.

(** ** Extraction and the declared state *)


(** X8: the extraction reads the four fields and nothing else: a write to
    any other field of the declared state, such as the [user_email] that
    Read writes, leaves its result as it was. *)
Theorem extraction_ignores_other_fields (d : gmap string iface) (key : string) (v : iface) :
  key ≠ "user_id" -> key ≠ "role" -> key ≠ "team_id" -> key ≠ "max_budget_in_team" ->
  getTeamMembershipData (Set_ d key v) = getTeamMembershipData d.
Proof.
  intros H1 H2 H3 H4. unfold getTeamMembershipData, Get, Set_.
  by rewrite !lookup_insert_ne.
Qed.

(** ** The loop of Read, on any list of entries *)


(** X10: how the writes of the loop compose with the extraction.  After a
    match, a handler that extracts the declared fields again finds the role
    of the matching entry, and the user id, the team id and the budget it
    found before. *)
Theorem extraction_after_a_match (userId : string) (d d' : gmap string iface)
    (l : list litellm.MemberWithRole) (data : TeamMembershipData) :
  scan_members userId d l = Some d' ->
  getTeamMembershipData d = Return data ->
  exists entry,
    entry ∈ l /\ litellm.UserId entry = userId
    /\ getTeamMembershipData d' =
         Return (mkTeamMembershipData (UserId data) (litellm.Role entry)
                   (TeamId data) (MaxBudgetInTeam data)).
Proof.
  intros Hscan Hdata.
  apply getTeamMembershipData_Return in Hdata as (Hu & _ & Ht & Hb).
  induction l as [|x rest IH]; cbn [scan_members] in Hscan; [discriminate Hscan|].
  destruct (String.eqb_spec (litellm.UserId x) userId) as [Heq|_].
  - injection Hscan as <-. exists x. split; [apply list_elem_of_here|].
    split; [exact Heq|].
    apply getTeamMembershipData_Return. cbn [UserId Role TeamId MaxBudgetInTeam].
    rewrite !Set_role_and_email. cbn. by rewrite Hu, Ht, Hb.
  - destruct (IH Hscan) as (entry & Hin & Hentry & Hextract).
    exists entry. split; [by apply list_elem_of_further | by split].
Qed.

(** ** The role validator, on any value *)


(** X12: the validator accepts a string, with no error at all, exactly when
    it is a role of the permitted list and is neither of the two reserved
    proxy-admin values. *)
Theorem ValidateFunc_accepts_exactly (ROLE_LIST : list litellm.RoleName)
    (value key : string) :
  ValidateFunc ROLE_LIST (Str value) key = Return ([], []) <->
  value ∈ ROLE_LIST /\ value ≠ litellm.PROXY_ADMIN /\ value ≠ litellm.PROXY_ADMIN_VIEWER.
Proof.
  unfold ValidateFunc. cbn [assert_string].
  destruct (decide (value ∈ ROLE_LIST)) as [Hin|Hout].
  - rewrite (ValidateRole_listed _ _ Hin). cbn [negb].
    destruct (String.eqb_spec value litellm.PROXY_ADMIN) as [Hpa|Hpa];
      destruct (String.eqb_spec value litellm.PROXY_ADMIN_VIEWER) as [Hpv|Hpv];
      cbn [orb app]; split; try discriminate; try (by intros (_ & ? & ?)); done.
  - rewrite (ValidateRole_unlisted _ _ Hout). cbn.
    split; [discriminate | by intros (? & _)].
Qed.

(** ** The further properties at sample inputs *)

Lemma Delete_sends_the_ids_alone_witness :
  exists rest,
    (@resourceTeamMembershipDelete sample_encoder (answering 200 None)
       (declared "u2" "admin" 12.5) (ClientPtr (Some sample_client))).2 =
      BuildRequest "POST" "https://llm.example/team/member_delete"
        (Some (@json_object sample_encoder
                 [("team_id", quote +:+ "t1" +:+ quote);
                  ("user_id", quote +:+ "u2" +:+ quote)])) :: rest.
Proof.
  apply (@Delete_sends_the_ids_alone sample_encoder (answering 200 None)
           (declared "u2" "admin" 12.5) sample_client
           (mkTeamMembershipData "u2" "admin" "t1" 12.5)).
  vm_compute. reflexivity.
Defined.

Lemma outcome_is_decided_by_the_exchange_witness :
  (@resourceTeamMembershipUpdate sample_encoder (answering 500 None)
     (declared "u2" "admin" 12.5) (ClientPtr (Some sample_client))).1
    = Return (declared "u2" "admin" 12.5, [])
  /\ (@resourceTeamMembershipRead sample_encoder unreachable
        (declared "u2" "admin" 12.5) (ClientPtr (Some sample_client))).1
    = Panic NilDereference.
Proof.
  assert (Hd : getTeamMembershipData (declared "u2" "admin" 12.5)
               = Return (mkTeamMembershipData "u2" "admin" "t1" 12.5))
    by (vm_compute; reflexivity).
  split.
  - exact (proj1 (proj2 (proj2
      (@outcome_is_decided_by_the_exchange sample_encoder (answering 500 None)
         _ sample_client _ Hd)))).
  - exact (proj1 (proj2
      (@outcome_is_decided_by_the_exchange sample_encoder unreachable
         _ sample_client _ Hd))).
Defined.

Lemma extraction_ignores_other_fields_witness :
  getTeamMembershipData (Set_ (declared "u2" "member" 0) "user_email" (Str "a@x.com"))
  = getTeamMembershipData (declared "u2" "member" 0).
Proof.
  apply (extraction_ignores_other_fields (declared "u2" "member" 0) "user_email"
           (Str "a@x.com")); discriminate.
Defined.

Lemma extraction_after_a_match_witness :
  exists entry,
    entry ∈ [litellm.mkMemberWithRole "u1" "member" "a@x.com";
             litellm.mkMemberWithRole "u2" "admin" "";
             litellm.mkMemberWithRole "u2" "viewer" "b@x.com"]
    /\ litellm.UserId entry = "u2"
    /\ getTeamMembershipData
         (Set_ (Set_ (declared "u2" "member" 12.5) "role" (Str "admin"))
               "user_email" (Str ""))
       = Return (mkTeamMembershipData "u2" (litellm.Role entry) "t1" 12.5).
Proof.
  apply (extraction_after_a_match "u2" (declared "u2" "member" 12.5)
           (Set_ (Set_ (declared "u2" "member" 12.5) "role" (Str "admin"))
                 "user_email" (Str ""))
           [litellm.mkMemberWithRole "u1" "member" "a@x.com";
            litellm.mkMemberWithRole "u2" "admin" "";
            litellm.mkMemberWithRole "u2" "viewer" "b@x.com"]
           (mkTeamMembershipData "u2" "member" "t1" 12.5)).
  - reflexivity.
  - vm_compute. reflexivity.
Defined.
